(** * Conversation session manager of the Streamlit chat page

    A shallow embedding of [src/streamlit_app/app.py]: the message log kept
    in [st.session_state.messages], the conversion of that log to the
    provider's chat history, the turn flow run on every chat submission,
    the clear button and the model discovery helper.

    The Gemini SDK, the secret store and the Streamlit widgets are external
    collaborators.  The SDK is an oracle (record [Genai]) whose entry points
    either return or raise; every call the script makes is appended to a
    trace, and every widget output to a list of rendered events, so that
    "the remote call is not attempted" and "an error is surfaced" are
    statements about the final world. *)

From Stdlib Require Import String Ascii List Bool Arith Lia ZArith QArith.
Import ListNotations.

Local Open Scope nat_scope.
Local Open Scope string_scope.
Local Open Scope list_scope.

(** ** Data model *)

(** An entry of [st.session_state.messages]: the dict
    [{"role": ..., "content": ...}].  The role is a free string in the
    source; the script itself only ever writes "user" and "assistant". *)
Record Message : Type := mkMessage { role : string; content : string }.

(** An entry of [chat_history]: the dict [{"role": ..., "parts": [...]}]
    handed to the provider. *)
Record Content : Type := mkContent { c_role : string; parts : list string }.

(** The [generation_config] dict built from the two sliders. *)
Record GenerationConfig : Type :=
  mkConfig { temperature : Q; max_output_tokens : Z }.

(** An element of [genai.list_models()]. *)
Record Model : Type :=
  mkModel { name : string; supported_generation_methods : list string }.

(** A Python exception: its class and [str(e)]. *)
Record Exn : Type := mkExn { exn_class : string; exn_str : string }.

(** Result of a Python expression: a value, or a raised exception. *)
Inductive Exc (A : Type) : Type :=
| Ok (a : A)
| Raised (e : Exn).
Arguments Ok {A} a.
Arguments Raised {A} e.

Definition is_ok {A : Type} (r : Exc A) : bool :=
  match r with Ok _ => true | Raised _ => false end.

(** The object returned by [chat.send_message]; reading [.text] may raise. *)
Record Response : Type := mkResponse { text : Exc string }.

(** The [google.generativeai] module as seen by the script. *)
Record Genai : Type := mkGenai {
  list_models : Exc (list Model);
  GenerativeModel : string -> GenerationConfig -> Exc unit;
  start_chat : string -> GenerationConfig -> list Content -> Exc unit;
  send_message :
    string -> GenerationConfig -> list Content -> string -> Exc Response
}.

(** Calls into the SDK, in the order the script makes them. *)
Inductive Call : Type :=
| CallConfigure (api_key : string)
| CallListModels
| CallGenerativeModel (model_name : string) (cfg : GenerationConfig)
| CallStartChat (history : list Content)
| CallSendMessage (msg : string).

(** What the script asks Streamlit to render. *)
Inductive UiEvent : Type :=
| UiChatMarkdown (speaker : string) (body : string)
| UiError (body : string).

(** [st.session_state] together with the two traces. *)
Record World : Type := mkWorld {
  messages : list Message;
  gemini_configured : option bool;
  ui : list UiEvent;
  calls : list Call
}.

(** ** Python helpers *)

(** Truthiness of a value that is [None] or a string. *)
Definition truthy_str (v : option string) : bool :=
  match v with
  | Some s => negb (s =? "")
  | None => false
  end.

(** Truthiness of a value that is [None] or a bool. *)
Definition truthy_flag (v : option bool) : bool :=
  match v with
  | Some b => b
  | None => false
  end.

(** [a or b] on such values. *)
Definition py_or (a b : option string) : option string :=
  if truthy_str a then a else b.

(** [x in xs] for a list of strings. *)
Fixpoint py_in (x : string) (xs : list string) : bool :=
  match xs with
  | [] => false
  | y :: ys => (y =? x) || py_in x ys
  end.

(** [s.replace(old, new)] for a non-empty [old]: occurrences are replaced
    left to right without overlap.  [skip] counts the characters of a
    matched occurrence that are still to be dropped. *)
Fixpoint replace_from (old new : string) (skip : nat) (s : string) : string :=
  match s with
  | EmptyString => EmptyString
  | String c s' =>
      match skip with
      | S k => replace_from old new k s'
      | O =>
          if String.prefix old s
          then (new ++ replace_from old new (String.length old - 1) s')%string
          else String c (replace_from old new 0 s')
      end
  end.

Definition replace (old new s : string) : string := replace_from old new 0 s.

(** [xs[:-1]] *)
Definition slice_but_last {A : Type} (xs : list A) : list A := removelast xs.

(** [xs[-1]]: raises [IndexError] on the empty list. *)
Definition index_last {A : Type} (xs : list A) : Exc A :=
  match rev xs with
  | [] => Raised (mkExn "IndexError" "list index out of range")
  | x :: _ => Ok x
  end.

(** ** The script monad: state that survives a raise *)

Definition M (A : Type) : Type := World -> Exc A * World.

Definition ret {A : Type} (a : A) : M A := fun w => (Ok a, w).

Definition bind {A B : Type} (m : M A) (k : A -> M B) : M B :=
  fun w =>
    match m w with
    | (Ok a, w') => k a w'
    | (Raised e, w') => (Raised e, w')
    end.

Definition raise {A : Type} (e : Exn) : M A := fun w => (Raised e, w).

(** [try: body except Exception as e: handler(e)] *)
Definition try_except {A : Type} (body : M A) (handler : Exn -> M A) : M A :=
  fun w =>
    match body w with
    | (Ok a, w') => (Ok a, w')
    | (Raised e, w') => handler e w'
    end.

Definition lift_exc {A : Type} (r : Exc A) : M A := fun w => (r, w).

Declare Scope script_scope.
Delimit Scope script_scope with script.
Notation "x <- m ;; k" := (bind m (fun x => k))
  (at level 61, m at next level, right associativity) : script_scope.
Notation "m ;; k" := (bind m (fun _ => k))
  (at level 61, right associativity) : script_scope.
Local Open Scope script_scope.

Definition get_messages : M (list Message) := fun w => (Ok (messages w), w).

Definition get_configured : M (option bool) :=
  fun w => (Ok (gemini_configured w), w).

Definition set_messages (ms : list Message) : M unit :=
  fun w => (Ok tt, mkWorld ms (gemini_configured w) (ui w) (calls w)).

Definition set_configured (v : option bool) : M unit :=
  fun w => (Ok tt, mkWorld (messages w) v (ui w) (calls w)).

Definition render (ev : UiEvent) : M unit :=
  fun w =>
    (Ok tt, mkWorld (messages w) (gemini_configured w) (ui w ++ [ev]) (calls w)).

(** A call into the SDK: recorded, then answered by the oracle. *)
Definition sdk_call {A : Type} (c : Call) (answer : Exc A) : M A :=
  fun w =>
    (answer,
     mkWorld (messages w) (gemini_configured w) (ui w) (calls w ++ [c])).

(** [st.session_state.messages.append(m)] *)
Definition messages_append (m : Message) : M unit :=
  ms <- get_messages ;; set_messages (ms ++ [m]).

(** [st.session_state.messages.pop()]: removes and returns the last entry,
    raises on the empty list. *)
Definition messages_pop : M Message :=
  ms <- get_messages ;;
  match rev ms with
  | [] => raise (mkExn "IndexError" "pop from empty list")
  | m :: _ => set_messages (slice_but_last ms) ;; ret m
  end.

(** ** Client initialisation (lines 15-22, 37-40) *)

(** [os.getenv("GEMINI_API_KEY") or st.secrets.get("GEMINI_API_KEY", ...)]:
    [env] is what the environment holds; [secret] is what reading the
    secrets store gives, a raise when there is no secrets file.  The store
    is read only when the variable is unset or empty. *)
Definition read_api_key (env : option string) (secret : Exc (option string))
  : M (option string) :=
  if truthy_str env then ret env else lift_exc secret.

(** The body of [init_gemini_client] (lines 17-22). *)
Definition init_gemini_client_body
    (env : option string) (secret : Exc (option string)) : M (option bool) :=
  api_key <- read_api_key env secret ;;
  match api_key with
  | Some k =>
      if negb (truthy_str (Some k)) then ret None
      else sdk_call (CallConfigure k) (Ok tt) ;; ret (Some true)
  | None => ret None
  end.

(** What [@st.cache_resource] keeps for the process: nothing yet, or the
    value the body returned. *)
Definition ResourceCache : Type := option (option bool).

(** The decorated function: a cached value is returned without running the
    body; otherwise the body runs and what it returns is cached.  A raise
    caches nothing.  The result comes with the cache after the call. *)
Definition init_gemini_client (cache : ResourceCache)
    (env : option string) (secret : Exc (option string))
  : M (option bool * ResourceCache) :=
  match cache with
  | Some v => ret (v, cache)
  | None =>
      v <- init_gemini_client_body env secret ;;
      ret (v, Some v)
  end.

Definition empty_world : World := mkWorld [] None [] [].

(** Lines 37-40 of a script run.  The two flags tell whether the key
    "messages", respectively "gemini_configured", is already in
    [st.session_state]; an absent key is initialised.  The result is the
    cache after the run. *)
Definition init_session_state (has_messages has_configured : bool)
    (cache : ResourceCache) (env : option string)
    (secret : Exc (option string)) : M ResourceCache :=
  (if has_messages then ret tt else set_messages []) ;;
  if has_configured then ret cache
  else
    r <- init_gemini_client cache env secret ;;
    set_configured (fst r) ;;
    ret (snd r).

(** The first run of a session: neither key is there yet.  Line 40 may
    raise, in which case the flag has not been set. *)
Definition session_start (cache : ResourceCache) (env : option string)
    (secret : Exc (option string)) : Exc ResourceCache * World :=
  init_session_state false false cache env secret empty_world.

(** ** Model discovery (lines 25-34) *)

Definition fallback_models : list string :=
  ["gemini-pro"; "gemini-1.5-pro-latest"; "gemini-1.5-flash-latest"].

(** The list comprehension of line 30. *)
Fixpoint available_names (models : list Model) : list string :=
  match models with
  | [] => []
  | m :: rest =>
      if py_in "generateContent" (supported_generation_methods m)
      then replace "models/" "" (name m) :: available_names rest
      else available_names rest
  end.

Definition get_available_models (sdk : Genai) : M (list string) :=
  try_except
    (models <- sdk_call CallListModels (list_models sdk) ;;
     let available := available_names models in
     ret (match available with [] => fallback_models | _ :: _ => available end))
    (fun _ => ret fallback_models).

(** The sidebar's [model_options] (lines 54-63).  In a configured
    session the key is read again inside the [try]; its hash is passed to
    [get_available_models], which does not use its argument.  The bare
    [except] answers any raise with the fallback list. *)
Definition model_options (sdk : Genai) (env : option string)
    (secret : Exc (option string)) : M (list string) :=
  cfgd <- get_configured ;;
  if truthy_flag cfgd
  then
    try_except
      (read_api_key env secret ;; get_available_models sdk)
      (fun _ => ret fallback_models)
  else ret fallback_models.

(** ** Clear button (lines 100-102) *)

(** The body run when the button reports a click; [st.rerun()] then
    restarts the script with no pending widget event. *)
Definition clear_chat : M unit := set_messages [].

Definition clear_button (clicked : bool) : M unit :=
  if clicked then clear_chat else ret tt.

(** ** History conversion (lines 140-148) *)

(** One iteration of the loop of lines 141-145. *)
Definition chat_history_step (acc : list Content) (msg : Message)
  : list Content :=
  if role msg =? "user"
  then acc ++ [mkContent "user" [content msg]]
  else if role msg =? "assistant"
  then acc ++ [mkContent "model" [content msg]]
  else acc.

(** The list [chat_history] after the loop. *)
Definition chat_history (log : list Message) : list Content :=
  fold_left chat_history_step log [].

(** The [history=] argument of line 148. *)
Definition start_chat_history (log : list Message) : list Content :=
  let h := chat_history log in
  if Nat.ltb 1 (List.length h) then slice_but_last h else [].

(** The spec's [projectHistory]: with [excludeLast] it is the argument of
    [start_chat], without it the converted list itself. *)
Definition projectHistory (log : list Message) (excludeLast : bool)
  : list Content :=
  if excludeLast then start_chat_history log else chat_history log.

(** The role remap read off the two branches of the loop. *)
Definition role_mapping (r : string) : option string :=
  if r =? "user" then Some "user"
  else if r =? "assistant" then Some "model"
  else None.

(** What one log entry contributes to the converted list. *)
Definition project_message (m : Message) : option Content :=
  match role_mapping (role m) with
  | Some r => Some (mkContent r [content m])
  | None => None
  end.

(** A role the loop has a branch for. *)
Definition declared (m : Message) : bool :=
  (role m =? "user") || (role m =? "assistant").

(** ** Turn flow (lines 114-167) *)

(** String literals are kept as the UTF-8 bytes of the source. *)
Definition config_error_text : string :=
  "⚠️ Please configure your Gemini API key in the sidebar to use the chat.".

Definition error_text (e : Exn) : string := ("❌ Error: " ++ exn_str e)%string.

(** The body of the [try] (lines 129-163), the spec's [sendTurn]. *)
Definition send_turn (sdk : Genai) (model : string) (cfg : GenerationConfig)
  : M unit :=
  sdk_call (CallGenerativeModel model cfg) (GenerativeModel sdk model cfg) ;;
  log <- get_messages ;;
  let history := start_chat_history log in
  sdk_call (CallStartChat history) (start_chat sdk model cfg history) ;;
  last_msg <- lift_exc (index_last log) ;;
  let last_user_message := content last_msg in
  response <- sdk_call (CallSendMessage last_user_message)
                (send_message sdk model cfg history last_user_message) ;;
  assistant_response <- lift_exc (text response) ;;
  render (UiChatMarkdown "assistant" assistant_response) ;;
  messages_append (mkMessage "assistant" assistant_response).

(** The [except] handler (lines 164-167). *)
Definition on_error (e : Exn) : M unit :=
  render (UiError (error_text e)) ;;
  messages_pop ;;
  ret tt.

(** The body of [if prompt := st.chat_input(...)]. *)
Definition turn_flow (sdk : Genai) (model : string) (cfg : GenerationConfig)
    (prompt : string) : M unit :=
  messages_append (mkMessage "user" prompt) ;;
  render (UiChatMarkdown "user" prompt) ;;
  cfgd <- get_configured ;;
  if negb (truthy_flag cfgd)
  then
    render (UiError config_error_text) ;;
    messages_pop ;;
    ret tt
  else try_except (send_turn sdk model cfg) on_error.

(** The walrus guard: nothing runs unless a non-empty string was submitted. *)
Definition chat_input (sdk : Genai) (model : string) (cfg : GenerationConfig)
    (prompt : option string) : M unit :=
  match prompt with
  | Some p => if truthy_str (Some p) then turn_flow sdk model cfg p else ret tt
  | None => ret tt
  end.

(** One submission: what the remote does during it, the sidebar values and
    the text typed. *)
Record Submission : Type := mkSubmission {
  sub_sdk : Genai;
  sub_model : string;
  sub_config : GenerationConfig;
  sub_prompt : string
}.

Definition run_turn (s : Submission) (w : World) : World :=
  snd (turn_flow (sub_sdk s) (sub_model s) (sub_config s) (sub_prompt s) w).

(** Successive script runs, one per submission. *)
Definition run_turns (subs : list Submission) (w : World) : World :=
  fold_left (fun acc s => run_turn s acc) subs w.

(** The world in which [send_turn] starts during a submission. *)
Definition after_user_append (prompt : string) (w : World) : World :=
  mkWorld (messages w ++ [mkMessage "user" prompt]) (gemini_configured w)
    (ui w ++ [UiChatMarkdown "user" prompt]) (calls w).

(** Every remote call of every submission returned. *)
Fixpoint all_succeed (subs : list Submission) (w : World) : Prop :=
  match subs with
  | [] => True
  | s :: rest =>
      is_ok (fst (send_turn (sub_sdk s) (sub_model s) (sub_config s)
                    (after_user_append (sub_prompt s) w))) = true
      /\ all_succeed rest (run_turn s w)
  end.

(** A remote none of whose entry points raises. *)
Definition reliable (sdk : Genai) : Prop :=
  (forall model cfg, GenerativeModel sdk model cfg = Ok tt)
  /\ (forall model cfg history, start_chat sdk model cfg history = Ok tt)
  /\ (forall model cfg history msg,
        exists reply,
          send_message sdk model cfg history msg = Ok (mkResponse (Ok reply))).

(** Roles alternate, the first one being "user" when [expect_user]. *)
Fixpoint alternating (expect_user : bool) (log : list Message) : bool :=
  match log with
  | [] => true
  | m :: rest =>
      (role m =? (if expect_user then "user" else "assistant"))
      && alternating (negb expect_user) rest
  end.

(** ** Sidebar selection (lines 65-70) *)

(** [xs.index(x)]: the first position of [x], [ValueError] when absent. *)
Fixpoint py_index (x : string) (xs : list string) : Exc nat :=
  match xs with
  | [] => Raised (mkExn "ValueError" ("'" ++ x ++ "' is not in list")%string)
  | y :: ys =>
      if y =? x then Ok 0
      else match py_index x ys with
           | Ok i => Ok (S i)
           | Raised e => Raised e
           end
  end.

(** The [index=] argument of the model selectbox. *)
Definition default_index (options : list string) : Exc nat :=
  let initial := 0 in
  if py_in "gemini-pro" options then py_index "gemini-pro" options
  else if Nat.ltb 0 (List.length options) then Ok 0
  else Ok initial.

(** [old in s] for strings. *)
Fixpoint contains (old s : string) : bool :=
  match s with
  | EmptyString => String.prefix old EmptyString
  | String _ s' => String.prefix old s || contains old s'
  end.

(** ** Main chat interface (lines 108-167) *)

(** The chat bubble drawn for a log entry. *)
Definition bubble (m : Message) : UiEvent :=
  UiChatMarkdown (role m) (content m).

(** The display loop of lines 109-111. *)
Definition display_messages : M unit :=
  ms <- get_messages ;;
  fold_left (fun (acc : M unit) m => acc ;; render (bubble m)) ms (ret tt).

(** The log is drawn, then the chat input is handled; the static title
    and footer are left out. *)
Definition main_chat_interface (sdk : Genai) (model : string)
    (cfg : GenerationConfig) (prompt : option string) : M unit :=
  display_messages ;;
  chat_input sdk model cfg prompt.

(** ** Sample collaborators *)

Definition sample_config : GenerationConfig := mkConfig (7 # 10)%Q 2048%Z.

(** A remote that answers every message. *)
Definition echo_sdk : Genai :=
  mkGenai
    (Ok [mkModel "models/gemini-pro" ["generateContent"; "countTokens"];
         mkModel "models/embedding-001" ["embedContent"]])
    (fun _ _ => Ok tt)
    (fun _ _ _ => Ok tt)
    (fun _ _ _ msg => Ok (mkResponse (Ok ("echo: " ++ msg)%string))).

(** A remote whose quota is exhausted. *)
Definition quota_error : Exn :=
  mkExn "ResourceExhausted" "429 quota exceeded".

Definition quota_sdk : Genai :=
  mkGenai
    (Raised quota_error)
    (fun _ _ => Ok tt)
    (fun _ _ _ => Ok tt)
    (fun _ _ _ _ => Raised quota_error).

(** An account whose models do not generate text. *)
Definition embedding_only_sdk : Genai :=
  mkGenai
    (Ok [mkModel "models/embedding-001" ["embedContent"]])
    (fun _ _ => Ok tt)
    (fun _ _ _ => Ok tt)
    (fun _ _ _ msg => Ok (mkResponse (Ok msg))).

Definition configured_world (log : list Message) : World :=
  mkWorld log (Some true) [] [].

Definition unconfigured_world (log : list Message) : World :=
  mkWorld log None [] [].

(** * Properties *)

(** ** Lists *)

Lemma index_last_snoc {A : Type} (xs : list A) (x : A) :
  index_last (xs ++ [x]) = Ok x.
Proof.
  unfold index_last. rewrite rev_unit. reflexivity.
Qed.

Lemma slice_but_last_snoc {A : Type} (xs : list A) (x : A) :
  slice_but_last (xs ++ [x]) = xs.
Proof.
  unfold slice_but_last. apply removelast_last.
Qed.

Lemma snoc_cases {A : Type} (xs : list A) :
  xs = [] \/ exists front final, xs = front ++ [final].
Proof.
  destruct xs as [|x xs'] using rev_ind.
  - now left.
  - right. now exists xs', x.
Qed.

Lemma removelast_length {A : Type} (xs : list A) :
  List.length (removelast xs) = List.length xs - 1.
Proof.
  destruct (snoc_cases xs) as [->|(front & final & ->)].
  - reflexivity.
  - rewrite removelast_last, length_app. simpl. lia.
Qed.

(** ** History conversion *)

Lemma chat_history_step_acc (log : list Message) (acc : list Content) :
  fold_left chat_history_step log acc
  = acc ++ fold_left chat_history_step log [].
Proof.
  revert acc. induction log as [|m log IH]; intros acc; simpl.
  - now rewrite app_nil_r.
  - rewrite (IH (chat_history_step acc m)), (IH (chat_history_step [] m)).
    unfold chat_history_step.
    destruct (role m =? "user"); [|destruct (role m =? "assistant")];
      simpl; now rewrite <- ?app_assoc.
Qed.

Lemma chat_history_app (l1 l2 : list Message) :
  chat_history (l1 ++ l2) = chat_history l1 ++ chat_history l2.
Proof.
  unfold chat_history. rewrite fold_left_app. apply chat_history_step_acc.
Qed.

Lemma chat_history_one (m : Message) :
  chat_history [m]
  = match project_message m with Some c => [c] | None => [] end.
Proof.
  unfold chat_history, project_message, role_mapping, chat_history_step.
  simpl. destruct (role m =? "user"); [|destruct (role m =? "assistant")];
    reflexivity.
Qed.

Lemma chat_history_cons (m : Message) (log : list Message) :
  chat_history (m :: log)
  = match project_message m with Some c => [c] | None => [] end
    ++ chat_history log.
Proof.
  change (m :: log) with ([m] ++ log).
  now rewrite chat_history_app, chat_history_one.
Qed.

Lemma declared_project (m : Message) :
  declared m = true ->
  exists r, role_mapping (role m) = Some r
            /\ project_message m = Some (mkContent r [content m]).
Proof.
  unfold declared, project_message, role_mapping. intros H.
  destruct (role m =? "user").
  - now exists "user".
  - destruct (role m =? "assistant"); [now exists "model" | discriminate].
Qed.

Lemma undeclared_project (m : Message) :
  declared m = false -> project_message m = None.
Proof.
  unfold declared, project_message, role_mapping. intros H.
  destruct (role m =? "user"); [discriminate|].
  destruct (role m =? "assistant"); [discriminate|reflexivity].
Qed.

Lemma chat_history_length_le (log : list Message) :
  List.length (chat_history log) <= List.length log.
Proof.
  induction log as [|m log IH]; [apply Nat.le_refl|].
  rewrite chat_history_cons, length_app.
  destruct (project_message m); simpl; lia.
Qed.

Lemma chat_history_declared (log : list Message) :
  forallb declared log = true ->
  map Some (chat_history log) = map project_message log.
Proof.
  induction log as [|m log IH]; intros H; [reflexivity|].
  simpl in H. apply andb_true_iff in H as [Hm Hlog].
  rewrite chat_history_cons, map_app, (IH Hlog). simpl.
  destruct (declared_project m Hm) as (r & _ & ->). reflexivity.
Qed.

Lemma chat_history_declared_length (log : list Message) :
  forallb declared log = true ->
  List.length (chat_history log) = List.length log.
Proof.
  intros H. apply chat_history_declared in H.
  apply (f_equal (@List.length _)) in H. now rewrite !length_map in H.
Qed.

(** The conversion keeps the count exactly when every role is declared. *)
Lemma chat_history_count_iff (log : list Message) :
  List.length (chat_history log) = List.length log
  <-> forallb declared log = true.
Proof.
  split; [|apply chat_history_declared_length].
  induction log as [|m log IH]; [reflexivity|].
  rewrite chat_history_cons, length_app. simpl.
  pose proof (chat_history_length_le log) as Hle.
  destruct (declared m) eqn:Hm.
  - destruct (declared_project m Hm) as (r & _ & ->). simpl.
    intros H. apply IH. lia.
  - rewrite (undeclared_project m Hm). simpl. lia.
Qed.

Lemma start_chat_history_removelast (log : list Message) :
  start_chat_history log = removelast (chat_history log).
Proof.
  unfold start_chat_history, slice_but_last.
  destruct (Nat.ltb_spec 1 (List.length (chat_history log))) as [H|H];
    [reflexivity|].
  destruct (chat_history log) as [|c [|c' h]]; try reflexivity.
  simpl in H. lia.
Qed.

Lemma start_chat_history_snoc (front : list Message) (final : Message) :
  declared final = true ->
  start_chat_history (front ++ [final]) = chat_history front.
Proof.
  intros H. rewrite start_chat_history_removelast, chat_history_app.
  rewrite chat_history_one.
  destruct (declared_project final H) as (r & _ & ->).
  apply removelast_last.
Qed.

Lemma role_mapping_injective (r1 r2 r : string) :
  role_mapping r1 = Some r -> role_mapping r2 = Some r -> r1 = r2.
Proof.
  unfold role_mapping.
  destruct (String.eqb_spec r1 "user"), (String.eqb_spec r2 "user"),
    (String.eqb_spec r1 "assistant"), (String.eqb_spec r2 "assistant");
    intros H1 H2; congruence.
Qed.

Lemma forallb_declared_nth (log : list Message) (i : nat) (m : Message) :
  forallb declared log = true -> nth_error log i = Some m -> declared m = true.
Proof.
  intros H Hi. rewrite forallb_forall in H. apply H.
  eapply nth_error_In, Hi.
Qed.

Lemma projectHistory_true_declared (log : list Message) :
  forallb declared log = true ->
  projectHistory log true = projectHistory (removelast log) false.
Proof.
  intros H. unfold projectHistory.
  destruct (snoc_cases log) as [->|(front & final & ->)]; [reflexivity|].
  rewrite forallb_app in H. apply andb_true_iff in H as [_ Hfinal].
  simpl in Hfinal. rewrite andb_true_r in Hfinal.
  now rewrite removelast_last, start_chat_history_snoc.
Qed.

(** C5: on a log of user and assistant entries the conversion is the role
    remap user->"user", assistant->"model" applied entry by entry: the
    i-th converted entry is the remapped role of the i-th message with that
    message's content as its text, so order and count are those of the log;
    the remap is one-to-one; and with [excludeLast] the result is the same
    conversion of the log without its tail entry, one element shorter. *)
Theorem projectHistory_elementwise (log : list Message) :
  forallb declared log = true ->
  role_mapping "user" = Some "user"
  /\ role_mapping "assistant" = Some "model"
  /\ (forall r1 r2 r,
        role_mapping r1 = Some r -> role_mapping r2 = Some r -> r1 = r2)
  /\ map Some (projectHistory log false) = map project_message log
  /\ List.length (projectHistory log false) = List.length log
  /\ (forall i m,
        nth_error log i = Some m ->
        exists r,
          role_mapping (role m) = Some r
          /\ nth_error (projectHistory log false) i
             = Some (mkContent r [content m]))
  /\ projectHistory log true = projectHistory (removelast log) false
  /\ List.length (projectHistory log true) = List.length log - 1.
Proof.
  intros H.
  assert (Hmap : map Some (chat_history log) = map project_message log)
    by now apply chat_history_declared.
  repeat split; trivial.
  - apply role_mapping_injective.
  - now apply chat_history_declared_length.
  - intros i m Hi.
    destruct (declared_project m (forallb_declared_nth log i m H Hi))
      as (r & Hr & Hp).
    exists r. split; [exact Hr|].
    apply (f_equal (fun l => nth_error l i)) in Hmap.
    rewrite !nth_error_map, Hi in Hmap. simpl in Hmap. rewrite Hp in Hmap.
    unfold projectHistory.
    destruct (nth_error (chat_history log) i); simpl in Hmap; congruence.
  - now apply projectHistory_true_declared.
  - rewrite (projectHistory_true_declared log H). unfold projectHistory.
    rewrite chat_history_declared_length, removelast_length; trivial.
    destruct (snoc_cases log) as [->|(front & final & ->)]; [reflexivity|].
    rewrite removelast_last. rewrite forallb_app in H.
    now apply andb_true_iff in H as [Hfront _].
Qed.

Lemma projectHistory_elementwise_witness :
  map Some
    (projectHistory [mkMessage "user" "Hi"; mkMessage "assistant" "Hello"]
       false)
  = [Some (mkContent "user" ["Hi"]); Some (mkContent "model" ["Hello"])].
Proof.
  exact (proj1 (proj2 (proj2 (proj2
    (projectHistory_elementwise
       [mkMessage "user" "Hi"; mkMessage "assistant" "Hello"]
       eq_refl))))).
Defined.

(** C9: an entry whose role is neither "user" nor "assistant" leaves no
    trace in the converted history, with or without [excludeLast]; the
    converted list is then strictly shorter than the log. *)
Theorem chat_history_drops_undeclared
    (front back : list Message) (m : Message) :
  role m <> "user" -> role m <> "assistant" ->
  chat_history (front ++ m :: back) = chat_history (front ++ back)
  /\ (forall excludeLast,
        projectHistory (front ++ m :: back) excludeLast
        = projectHistory (front ++ back) excludeLast)
  /\ List.length (chat_history (front ++ m :: back))
     < List.length (front ++ m :: back).
Proof.
  intros Hu Ha.
  assert (Hm : declared m = false).
  { unfold declared. apply orb_false_iff. split; now apply String.eqb_neq. }
  assert (E : chat_history (front ++ m :: back) = chat_history (front ++ back)).
  { rewrite !chat_history_app, chat_history_cons.
    now rewrite (undeclared_project m Hm). }
  split; [exact E|]. split.
  - intros [|]; unfold projectHistory, start_chat_history; now rewrite E.
  - rewrite E. pose proof (chat_history_length_le (front ++ back)) as Hle.
    rewrite !length_app in *. simpl. lia.
Qed.

Lemma chat_history_drops_undeclared_witness :
  chat_history
    [mkMessage "user" "Hi"; mkMessage "system" "be brief";
     mkMessage "assistant" "Hello"]
  = chat_history [mkMessage "user" "Hi"; mkMessage "assistant" "Hello"].
Proof.
  apply (chat_history_drops_undeclared
           [mkMessage "user" "Hi"] [mkMessage "assistant" "Hello"]
           (mkMessage "system" "be brief")); simpl; discriminate.
Defined.

(** C2, as written, fails on a one-entry log: with [excludeLast] the
    history is empty, without it it holds the converted entry. *)
Lemma projectHistory_single_entry_differs :
  List.length [mkMessage "user" "Hi"] <= 1
  /\ projectHistory [mkMessage "user" "Hi"] true = []
  /\ projectHistory [mkMessage "user" "Hi"] false = [mkContent "user" ["Hi"]]
  /\ projectHistory [mkMessage "user" "Hi"] true
     <> projectHistory [mkMessage "user" "Hi"] false.
Proof.
  repeat split; try reflexivity. discriminate.
Qed.

(** C2, amended: with [excludeLast] the final entry of a non-empty log is
    omitted and the rest is converted as without the flag; a log of at most
    one entry therefore gives the empty history, which is the result
    without the flag only when the log is empty. *)
Theorem projectHistory_excludeLast (log : list Message) :
  (forall front final,
      log = front ++ [final] -> declared final = true ->
      projectHistory log true = projectHistory front false
      /\ exists c,
           project_message final = Some c
           /\ projectHistory log false = projectHistory log true ++ [c])
  /\ (List.length log <= 1 -> projectHistory log true = [])
  /\ (log = [] -> projectHistory log true = projectHistory log false).
Proof.
  split; [|split].
  - intros front final -> Hfinal. unfold projectHistory.
    rewrite (start_chat_history_snoc front final Hfinal). split; trivial.
    destruct (declared_project final Hfinal) as (r & _ & Hp).
    exists (mkContent r [content final]). split; [exact Hp|].
    now rewrite chat_history_app, chat_history_one, Hp.
  - intros Hlen. unfold projectHistory.
    rewrite start_chat_history_removelast.
    pose proof (chat_history_length_le log) as Hle.
    destruct (chat_history log) as [|c [|c' h]]; try reflexivity.
    simpl in Hle. lia.
  - intros ->. reflexivity.
Qed.

Lemma projectHistory_excludeLast_witness :
  projectHistory [mkMessage "user" "Hi"; mkMessage "assistant" "Hello";
                  mkMessage "user" "How are you?"] true
  = projectHistory [mkMessage "user" "Hi"; mkMessage "assistant" "Hello"] false
  /\ projectHistory [mkMessage "user" "Hi"] true = [].
Proof.
  split.
  - apply (proj1 (projectHistory_excludeLast
                    [mkMessage "user" "Hi"; mkMessage "assistant" "Hello";
                     mkMessage "user" "How are you?"])
             [mkMessage "user" "Hi"; mkMessage "assistant" "Hello"]
             (mkMessage "user" "How are you?")); reflexivity.
  - apply (proj1 (proj2 (projectHistory_excludeLast [mkMessage "user" "Hi"]))).
    simpl. lia.
Defined.

(** ** Turn flow *)

(** Steps all proofs about the script share: unfold the monad and compute. *)
Ltac reduce_world :=
  cbn [messages gemini_configured ui calls fst snd negb is_ok] in *.

Ltac run_script :=
  cbv [turn_flow send_turn on_error messages_append messages_pop
       get_available_models model_options clear_button clear_chat
       init_session_state init_gemini_client init_gemini_client_body
       read_api_key
       bind ret raise try_except lift_exc sdk_call render
       get_messages get_configured set_messages set_configured];
  cbn [messages gemini_configured ui calls fst snd].

Ltac case_answer :=
  match goal with
  | |- context [match ?r with Ok _ => _ | Raised _ => _ end] =>
      let E := fresh "E" in destruct r eqn:E
  | H : context [match ?r with Ok _ => _ | Raised _ => _ end] |- _ =>
      let E := fresh "E" in destruct r eqn:E
  end; reduce_world.

Lemma turn_flow_unconfigured
    (sdk : Genai) (model : string) (cfg : GenerationConfig)
    (prompt : string) (w : World) :
  truthy_flag (gemini_configured w) = false ->
  turn_flow sdk model cfg prompt w
  = (Ok tt,
     mkWorld (messages w) (gemini_configured w)
       (ui w ++ [UiChatMarkdown "user" prompt; UiError config_error_text])
       (calls w)).
Proof.
  intros H. run_script. rewrite H. reduce_world.
  rewrite rev_unit, slice_but_last_snoc, <- app_assoc. reflexivity.
Qed.

Lemma turn_flow_configured
    (sdk : Genai) (model : string) (cfg : GenerationConfig)
    (prompt : string) (w : World) :
  truthy_flag (gemini_configured w) = true ->
  turn_flow sdk model cfg prompt w
  = try_except (send_turn sdk model cfg) on_error
      (after_user_append prompt w).
Proof.
  intros H. unfold turn_flow, after_user_append.
  cbv [messages_append bind ret render get_messages get_configured
       set_messages].
  cbn [messages gemini_configured ui calls]. now rewrite H.
Qed.

(** A raise inside the [try] body leaves the log and the page as they were:
    the body writes to them only after its last fallible step. *)
Lemma send_turn_raised
    (sdk : Genai) (model : string) (cfg : GenerationConfig)
    (w : World) (e : Exn) :
  fst (send_turn sdk model cfg w) = Raised e ->
  messages (snd (send_turn sdk model cfg w)) = messages w
  /\ gemini_configured (snd (send_turn sdk model cfg w)) = gemini_configured w
  /\ ui (snd (send_turn sdk model cfg w)) = ui w.
Proof.
  run_script. repeat case_answer; intros H; try discriminate H; auto.
Qed.

Lemma send_turn_returned
    (sdk : Genai) (model : string) (cfg : GenerationConfig) (w : World) :
  is_ok (fst (send_turn sdk model cfg w)) = true ->
  exists reply,
    messages (snd (send_turn sdk model cfg w))
    = messages w ++ [mkMessage "assistant" reply]
    /\ gemini_configured (snd (send_turn sdk model cfg w))
       = gemini_configured w.
Proof.
  run_script. repeat case_answer; intros H; try discriminate H.
  eexists. split; reflexivity.
Qed.

Lemma on_error_pops (e : Exn) (w : World) (front : list Message)
    (final : Message) :
  messages w = front ++ [final] ->
  on_error e w
  = (Ok tt,
     mkWorld front (gemini_configured w) (ui w ++ [UiError (error_text e)])
       (calls w)).
Proof.
  intros H. run_script. rewrite H, rev_unit, slice_but_last_snoc. reflexivity.
Qed.

(** Where the body can raise. *)
Lemma send_turn_raises_construction
    (sdk : Genai) (model : string) (cfg : GenerationConfig)
    (w : World) (e : Exn) :
  GenerativeModel sdk model cfg = Raised e ->
  fst (send_turn sdk model cfg w) = Raised e.
Proof.
  intros H. run_script. now rewrite H.
Qed.

Lemma send_turn_raises_start_chat
    (sdk : Genai) (model : string) (cfg : GenerationConfig)
    (w : World) (e : Exn) :
  GenerativeModel sdk model cfg = Ok tt ->
  start_chat sdk model cfg (start_chat_history (messages w)) = Raised e ->
  fst (send_turn sdk model cfg w) = Raised e.
Proof.
  intros H1 H2. run_script. now rewrite H1, H2.
Qed.

Lemma send_turn_raises_send
    (sdk : Genai) (model : string) (cfg : GenerationConfig)
    (w : World) (front : list Message) (final : Message) (e : Exn) :
  messages w = front ++ [final] ->
  GenerativeModel sdk model cfg = Ok tt ->
  start_chat sdk model cfg (start_chat_history (messages w)) = Ok tt ->
  send_message sdk model cfg (start_chat_history (messages w)) (content final)
  = Raised e ->
  fst (send_turn sdk model cfg w) = Raised e.
Proof.
  intros Hm H1 H2 H3. run_script.
  rewrite H1, H2. cbn [messages]. rewrite Hm in *.
  rewrite index_last_snoc, H3. reflexivity.
Qed.

(** C1: when anything raises inside the [try] (model construction, history
    conversion, sending, reading the reply), the flow itself does not
    raise, the log is again exactly the log before the user turn was
    appended (so its length is unchanged, no assistant turn is there), and
    the error text is on the page. *)
Theorem failed_turn_restores_log
    (sdk : Genai) (model : string) (cfg : GenerationConfig)
    (prompt : string) (w : World) (e : Exn) :
  truthy_flag (gemini_configured w) = true ->
  fst (send_turn sdk model cfg (after_user_append prompt w)) = Raised e ->
  fst (turn_flow sdk model cfg prompt w) = Ok tt
  /\ messages (snd (turn_flow sdk model cfg prompt w)) = messages w
  /\ List.length (messages (snd (turn_flow sdk model cfg prompt w)))
     = List.length (messages w)
  /\ ui (snd (turn_flow sdk model cfg prompt w))
     = ui w ++ [UiChatMarkdown "user" prompt; UiError (error_text e)].
Proof.
  intros Hcfg Hraise. rewrite (turn_flow_configured _ _ _ _ _ Hcfg).
  destruct (send_turn_raised _ _ _ _ _ Hraise) as (Hm & _ & Hui).
  unfold try_except.
  destruct (send_turn sdk model cfg (after_user_append prompt w))
    as [r w'] eqn:E.
  cbn [fst snd] in *. subst r.
  rewrite (on_error_pops e w' (messages w) (mkMessage "user" prompt) Hm).
  reduce_world. rewrite Hui. cbn [after_user_append ui].
  rewrite <- app_assoc. repeat split; reflexivity.
Qed.

Lemma failed_turn_restores_log_witness :
  messages
    (snd (turn_flow quota_sdk "gemini-pro" sample_config "Hi"
            (configured_world [])))
  = [].
Proof.
  apply (failed_turn_restores_log quota_sdk "gemini-pro" sample_config "Hi"
           (configured_world []) quota_error); reflexivity.
Defined.

(** In a process that has cached nothing yet and whose secrets store can
    be read, a session without a key starts unconfigured, with an empty
    log and no call made; "no key" is cached. *)
Lemma session_start_no_key (env secret : option string) :
  truthy_str (py_or env secret) = false ->
  session_start None env (Ok secret) = (Ok (Some None), empty_world).
Proof.
  unfold py_or, session_start. intros Hkey. run_script.
  destruct (truthy_str env) eqn:Henv; [congruence|]. reduce_world.
  destruct secret as [k|]; [|reflexivity].
  rewrite Hkey. reflexivity.
Qed.

(** C6: without an API key the session starts unconfigured, and a
    submission in an unconfigured session makes no call into the SDK,
    puts the configuration error on the page and leaves the log as it was
    before the submission; an empty log stays empty. *)
Theorem unconfigured_turn_rolls_back
    (env secret : option string) (sdk : Genai) (model : string)
    (cfg : GenerationConfig) (prompt : string) (w : World) :
  truthy_str (py_or env secret) = false ->
  gemini_configured w
  = gemini_configured (snd (session_start None env (Ok secret))) ->
  calls (snd (session_start None env (Ok secret))) = []
  /\ truthy_flag (gemini_configured w) = false
  /\ fst (turn_flow sdk model cfg prompt w) = Ok tt
  /\ calls (snd (turn_flow sdk model cfg prompt w)) = calls w
  /\ ui (snd (turn_flow sdk model cfg prompt w))
     = ui w ++ [UiChatMarkdown "user" prompt; UiError config_error_text]
  /\ messages (snd (turn_flow sdk model cfg prompt w)) = messages w
  /\ (messages w = [] -> messages (snd (turn_flow sdk model cfg prompt w)) = []).
Proof.
  intros Hkey Hw.
  rewrite (session_start_no_key env secret Hkey) in *.
  cbn [snd empty_world gemini_configured calls] in *.
  assert (Hflag : truthy_flag (gemini_configured w) = false)
    by now rewrite Hw.
  rewrite (turn_flow_unconfigured sdk model cfg prompt w Hflag).
  reduce_world. repeat split; trivial.
Qed.

Lemma unconfigured_turn_rolls_back_witness :
  messages
    (snd (turn_flow echo_sdk "gemini-pro" sample_config "Hi"
            (unconfigured_world [])))
  = []
  /\ calls
       (snd (turn_flow echo_sdk "gemini-pro" sample_config "Hi"
               (unconfigured_world [])))
     = [].
Proof.
  pose proof (unconfigured_turn_rolls_back None (Some "") echo_sdk
                "gemini-pro" sample_config "Hi" (unconfigured_world [])
                eq_refl eq_refl) as H.
  split.
  - exact (proj1 (proj2 (proj2 (proj2 (proj2 (proj2 H))))) ).
  - exact (proj1 (proj2 (proj2 (proj2 H)))).
Defined.

(** C8: whatever the session holds, a click on the clear button leaves
    the log empty; nothing else of the session changes and no call is
    made. *)
Theorem clear_chat_empties_log (w : World) :
  fst (clear_button true w) = Ok tt
  /\ messages (snd (clear_button true w)) = []
  /\ gemini_configured (snd (clear_button true w)) = gemini_configured w
  /\ calls (snd (clear_button true w)) = calls w.
Proof.
  run_script. repeat split; reflexivity.
Qed.

(** C3: on a log ending in a user turn, once the model object exists the
    chat is started with the history [projectHistory log true], which is
    the conversion of everything before that last turn, and the content of
    the last turn is what is sent.  For the log Hi / Hello / How are you?
    the provider sees the history user:Hi, model:Hello and the message
    "How are you?". *)
Theorem send_turn_history_and_message
    (sdk : Genai) (model : string) (cfg : GenerationConfig)
    (w : World) (front : list Message) (txt : string) :
  messages w = front ++ [mkMessage "user" txt] ->
  GenerativeModel sdk model cfg = Ok tt ->
  start_chat sdk model cfg (projectHistory (messages w) true) = Ok tt ->
  calls (snd (send_turn sdk model cfg w))
  = calls w ++ [CallGenerativeModel model cfg;
                CallStartChat (projectHistory (messages w) true);
                CallSendMessage txt]
  /\ projectHistory (messages w) true = projectHistory front false
  /\ (front = [mkMessage "user" "Hi"; mkMessage "assistant" "Hello"] ->
      txt = "How are you?" ->
      calls (snd (send_turn sdk model cfg w))
      = calls w ++ [CallGenerativeModel model cfg;
                    CallStartChat [mkContent "user" ["Hi"];
                                   mkContent "model" ["Hello"]];
                    CallSendMessage "How are you?"]).
Proof.
  intros Hm Hgm Hsc. unfold projectHistory in *.
  assert (Hcalls :
    calls (snd (send_turn sdk model cfg w))
    = calls w ++ [CallGenerativeModel model cfg;
                  CallStartChat (start_chat_history (messages w));
                  CallSendMessage txt]).
  { remember (start_chat_history (messages w)) as h eqn:Hh.
    run_script. rewrite Hgm. reduce_world. rewrite <- Hh, Hsc. reduce_world.
    rewrite Hm, index_last_snoc. cbn [content].
    repeat case_answer; now rewrite <- !app_assoc. }
  split; [exact Hcalls|]. split.
  - rewrite Hm. now apply start_chat_history_snoc.
  - intros -> ->. rewrite Hcalls, Hm. reflexivity.
Qed.

Lemma send_turn_history_and_message_witness :
  calls
    (snd (send_turn echo_sdk "gemini-pro" sample_config
            (configured_world
               [mkMessage "user" "Hi"; mkMessage "assistant" "Hello";
                mkMessage "user" "How are you?"])))
  = [CallGenerativeModel "gemini-pro" sample_config;
     CallStartChat [mkContent "user" ["Hi"]; mkContent "model" ["Hello"]];
     CallSendMessage "How are you?"].
Proof.
  apply (proj2 (proj2 (send_turn_history_and_message echo_sdk "gemini-pro"
           sample_config
           (configured_world
              [mkMessage "user" "Hi"; mkMessage "assistant" "Hello";
               mkMessage "user" "How are you?"])
           [mkMessage "user" "Hi"; mkMessage "assistant" "Hello"]
           "How are you?" eq_refl eq_refl eq_refl))); reflexivity.
Defined.

(** ** Sequences of successful turns *)

Lemma alternating_app (b : bool) (l1 l2 : list Message) :
  alternating b (l1 ++ l2)
  = alternating b l1
    && alternating (if Nat.even (List.length l1) then b else negb b) l2.
Proof.
  revert b. induction l1 as [|m l1 IH]; intros b; [reflexivity|].
  cbn [app alternating]. rewrite IH, <- andb_assoc. f_equal. f_equal.
  cbn [List.length]. rewrite Nat.even_succ, <- Nat.negb_even.
  destruct (Nat.even (List.length l1)); cbn [negb]; [reflexivity|].
  now rewrite negb_involutive.
Qed.

Lemma run_turn_success (s : Submission) (w : World) :
  truthy_flag (gemini_configured w) = true ->
  is_ok (fst (send_turn (sub_sdk s) (sub_model s) (sub_config s)
                (after_user_append (sub_prompt s) w))) = true ->
  gemini_configured (run_turn s w) = gemini_configured w
  /\ exists reply,
       messages (run_turn s w)
       = messages w ++ [mkMessage "user" (sub_prompt s);
                        mkMessage "assistant" reply].
Proof.
  intros Hcfg Hok. unfold run_turn.
  rewrite (turn_flow_configured _ _ _ _ _ Hcfg).
  destruct (send_turn_returned _ _ _ _ Hok) as (reply & Hm & Hc).
  unfold try_except.
  destruct (send_turn (sub_sdk s) (sub_model s) (sub_config s)
              (after_user_append (sub_prompt s) w)) as [r w'] eqn:E.
  cbn [fst snd] in *. destruct r as [u|e]; [|discriminate Hok].
  cbn [snd]. split; [exact Hc|]. exists reply.
  rewrite Hm. cbn [after_user_append messages]. now rewrite <- app_assoc.
Qed.

Lemma run_turns_invariant (subs : list Submission) (w : World) :
  truthy_flag (gemini_configured w) = true ->
  all_succeed subs w ->
  Nat.even (List.length (messages w)) = true ->
  alternating true (messages w) = true ->
  List.length (messages (run_turns subs w))
  = List.length (messages w) + 2 * List.length subs
  /\ alternating true (messages (run_turns subs w)) = true.
Proof.
  revert w. induction subs as [|s subs IH]; intros w Hcfg Hall Heven Halt.
  - cbn. split; [lia|exact Halt].
  - destruct Hall as [Hok Hrest].
    destruct (run_turn_success s w Hcfg Hok) as (Hc & reply & Hm).
    change (run_turns (s :: subs) w) with (run_turns subs (run_turn s w)).
    destruct (IH (run_turn s w)) as [Hlen Halt'].
    + now rewrite Hc.
    + exact Hrest.
    + rewrite Hm, length_app. cbn [List.length].
      rewrite Nat.add_comm. cbn [Nat.add]. now rewrite Nat.even_succ_succ.
    + rewrite Hm, alternating_app, Halt, Heven. reflexivity.
    + split; [|exact Halt'].
      rewrite Hlen, Hm, length_app. cbn [List.length]. lia.
Qed.

(** C4: from the empty log of a configured session, after any number of
    submissions whose remote calls all return, the log holds two entries
    per submission and its roles alternate user, assistant, user, ... *)
Theorem successful_turns_alternate (subs : list Submission) (w : World) :
  messages w = [] ->
  truthy_flag (gemini_configured w) = true ->
  all_succeed subs w ->
  List.length (messages (run_turns subs w)) = 2 * List.length subs
  /\ alternating true (messages (run_turns subs w)) = true.
Proof.
  intros Hempty Hcfg Hall.
  destruct (run_turns_invariant subs w Hcfg Hall) as [Hlen Halt].
  - now rewrite Hempty.
  - now rewrite Hempty.
  - split; [|exact Halt]. rewrite Hlen, Hempty. reflexivity.
Qed.

Lemma successful_turns_alternate_witness :
  List.length
    (messages
       (run_turns
          [mkSubmission echo_sdk "gemini-pro" sample_config "Hi";
           mkSubmission echo_sdk "gemini-pro" sample_config "How are you?"]
          (configured_world [])))
  = 4.
Proof.
  apply (successful_turns_alternate
           [mkSubmission echo_sdk "gemini-pro" sample_config "Hi";
            mkSubmission echo_sdk "gemini-pro" sample_config "How are you?"]
           (configured_world [])).
  - reflexivity.
  - reflexivity.
  - vm_compute. repeat split.
Defined.

(** The calls of a submission are those of the [try] body. *)
Lemma turn_flow_calls
    (sdk : Genai) (model : string) (cfg : GenerationConfig)
    (prompt : string) (w : World) :
  truthy_flag (gemini_configured w) = true ->
  calls (snd (turn_flow sdk model cfg prompt w))
  = calls (snd (send_turn sdk model cfg (after_user_append prompt w))).
Proof.
  intros Hcfg. rewrite (turn_flow_configured _ _ _ _ _ Hcfg).
  unfold try_except.
  destruct (send_turn sdk model cfg (after_user_append prompt w))
    as [[u|e] w'] eqn:E; cbn [snd]; [reflexivity|].
  assert (Hr : fst (send_turn sdk model cfg (after_user_append prompt w))
               = Raised e) by now rewrite E.
  destruct (send_turn_raised _ _ _ _ _ Hr) as (Hm & _ & _).
  rewrite E in Hm. cbn [snd after_user_append messages] in Hm.
  now rewrite (on_error_pops e w' _ _ Hm).
Qed.

Example scenario_B_through_turn_flow :
  calls
    (snd (turn_flow echo_sdk "gemini-pro" sample_config "How are you?"
            (configured_world
               [mkMessage "user" "Hi"; mkMessage "assistant" "Hello"])))
  = [CallGenerativeModel "gemini-pro" sample_config;
     CallStartChat [mkContent "user" ["Hi"]; mkContent "model" ["Hello"]];
     CallSendMessage "How are you?"].
Proof. reflexivity. Qed.

Example scenario_A_first_turn :
  turn_flow echo_sdk "gemini-pro" sample_config "Hi" (configured_world [])
  = (Ok tt,
     mkWorld [mkMessage "user" "Hi"; mkMessage "assistant" "echo: Hi"]
       (Some true)
       [UiChatMarkdown "user" "Hi"; UiChatMarkdown "assistant" "echo: Hi"]
       [CallGenerativeModel "gemini-pro" sample_config;
        CallStartChat []; CallSendMessage "Hi"]).
Proof. reflexivity. Qed.

(** ** Model discovery *)

Example replace_prefix : replace "models/" "" "models/gemini-pro" = "gemini-pro".
Proof. reflexivity. Qed.

Example replace_everywhere :
  replace "models/" "" "tunedmodels/x-models/" = "tunedx-".
Proof. reflexivity. Qed.

Lemma py_in_In (x : string) (xs : list string) :
  py_in x xs = true <-> In x xs.
Proof.
  induction xs as [|y ys IH]; cbn [py_in In].
  - split; [discriminate|tauto].
  - rewrite orb_true_iff, IH, String.eqb_eq. tauto.
Qed.

(** The comprehension keeps, in order, the stripped names of the models
    that list "generateContent". *)
Lemma available_names_filter (models : list Model) :
  available_names models
  = map (fun m => replace "models/" "" (name m))
      (filter (fun m => py_in "generateContent"
                          (supported_generation_methods m)) models).
Proof.
  induction models as [|m rest IH]; [reflexivity|].
  cbn [available_names filter].
  destruct (py_in "generateContent" (supported_generation_methods m));
    cbn [map]; now rewrite IH.
Qed.

Lemma get_available_models_raised (sdk : Genai) (w : World) (e : Exn) :
  list_models sdk = Raised e ->
  fst (get_available_models sdk w) = Ok fallback_models.
Proof.
  intros H. run_script. now rewrite H.
Qed.

Lemma get_available_models_listed
    (sdk : Genai) (w : World) (models : list Model) :
  list_models sdk = Ok models ->
  fst (get_available_models sdk w)
  = Ok (match available_names models with
        | [] => fallback_models
        | _ :: _ => available_names models
        end).
Proof.
  intros H. run_script. now rewrite H.
Qed.

(** C7: model discovery returns, never raises, and its result is not
    empty: it is the fallback list of three identifiers when the listing
    raises, and when the listing returns and some listed model advertises
    "generateContent" it is the list of the names of exactly those models,
    in listing order, each with "models/" removed. *)
Theorem get_available_models_total (sdk : Genai) (w : World) :
  exists names,
    fst (get_available_models sdk w) = Ok names
    /\ names <> []
    /\ List.length fallback_models = 3
    /\ (forall e, list_models sdk = Raised e -> names = fallback_models)
    /\ (forall models,
          list_models sdk = Ok models ->
          (exists m,
              In m models
              /\ In "generateContent" (supported_generation_methods m)) ->
          names
          = map (fun m => replace "models/" "" (name m))
              (filter (fun m => py_in "generateContent"
                                  (supported_generation_methods m)) models)
          /\ forall m,
               In m models ->
               In "generateContent" (supported_generation_methods m) ->
               In (replace "models/" "" (name m)) names).
Proof.
  destruct (list_models sdk) as [models|e] eqn:E.
  - rewrite (get_available_models_listed sdk w models E).
    assert (Hkept : forall m,
               In m models ->
               In "generateContent" (supported_generation_methods m) ->
               In (replace "models/" "" (name m)) (available_names models)).
    { intros m Hm Hcap. rewrite available_names_filter.
      apply (in_map (fun m => replace "models/" "" (name m))).
      apply filter_In. split; [exact Hm|]. now apply py_in_In. }
    destruct (available_names models) as [|n ns] eqn:En.
    + exists fallback_models.
      split; [reflexivity|]. split; [discriminate|]. split; [reflexivity|].
      split; [discriminate|].
      intros models' [= <-] (m & Hm & Hcap). destruct (Hkept m Hm Hcap).
    + exists (n :: ns).
      split; [reflexivity|]. split; [discriminate|]. split; [reflexivity|].
      split; [discriminate|].
      intros models' [= <-] _. split; [|exact Hkept].
      rewrite <- En. apply available_names_filter.
  - rewrite (get_available_models_raised sdk w e E).
    exists fallback_models.
    split; [reflexivity|]. split; [discriminate|]. split; [reflexivity|].
    split; [reflexivity|discriminate].
Qed.

Lemma get_available_models_total_witness :
  fst (get_available_models echo_sdk (configured_world []))
  = Ok ["gemini-pro"].
Proof.
  destruct (get_available_models_total echo_sdk (configured_world []))
    as (names & Hret & _ & _ & _ & Hlisted).
  rewrite Hret. f_equal.
  apply (Hlisted
           [mkModel "models/gemini-pro" ["generateContent"; "countTokens"];
            mkModel "models/embedding-001" ["embedContent"]] eq_refl).
  exists (mkModel "models/gemini-pro" ["generateContent"; "countTokens"]).
  split; left; reflexivity.
Defined.

(** C10: the fallback list of three identifiers is the result both when
    the listing raises and when it returns but no listed model advertises
    "generateContent"; the result is non-empty either way. *)
Theorem get_available_models_fallback (sdk : Genai) (w : World) :
  (exists e, list_models sdk = Raised e)
  \/ (exists models,
        list_models sdk = Ok models /\ available_names models = []) ->
  fst (get_available_models sdk w) = Ok fallback_models
  /\ fallback_models
     = ["gemini-pro"; "gemini-1.5-pro-latest"; "gemini-1.5-flash-latest"]
  /\ fallback_models <> [].
Proof.
  intros [(e & H)|(models & H & Hnone)].
  - rewrite (get_available_models_raised sdk w e H).
    repeat split; discriminate.
  - rewrite (get_available_models_listed sdk w models H), Hnone.
    repeat split; discriminate.
Qed.

Lemma get_available_models_fallback_witness :
  fst (get_available_models embedding_only_sdk (configured_world []))
  = Ok fallback_models
  /\ fst (get_available_models quota_sdk (configured_world []))
     = Ok fallback_models.
Proof.
  split.
  - apply (get_available_models_fallback embedding_only_sdk
             (configured_world [])).
    right. now exists [mkModel "models/embedding-001" ["embedContent"]].
  - apply (get_available_models_fallback quota_sdk (configured_world [])).
    left. now exists quota_error.
Defined.

Example discovery_lists_text_models :
  fst (get_available_models echo_sdk (configured_world []))
  = Ok ["gemini-pro"].
Proof. reflexivity. Qed.

(** ** Remaining entry points *)

(** Against a remote that never raises, every submission succeeds. *)
Lemma reliable_all_succeed (subs : list Submission) (w : World) :
  Forall (fun s => reliable (sub_sdk s)) subs -> all_succeed subs w.
Proof.
  intros H. revert w. induction H as [|s subs Hs _ IH]; intros w.
  - exact I.
  - split; [|apply IH].
    destruct Hs as (Hgm & Hsc & Hsend). run_script.
    rewrite Hgm. reduce_world. rewrite Hsc. reduce_world.
    cbn [after_user_append messages]. rewrite index_last_snoc.
    cbn [content].
    destruct (Hsend (sub_model s) (sub_config s)
                (start_chat_history
                   (messages w ++ [mkMessage "user" (sub_prompt s)]))
                (sub_prompt s)) as (reply & ->).
    reflexivity.
Qed.

(** Nothing happens on a run without a submitted, non-empty text. *)
Lemma chat_input_idle
    (sdk : Genai) (model : string) (cfg : GenerationConfig) (w : World) :
  chat_input sdk model cfg None w = (Ok tt, w)
  /\ chat_input sdk model cfg (Some "") w = (Ok tt, w).
Proof.
  split; reflexivity.
Qed.

(** The sidebar always has at least one model to offer. *)
Lemma model_options_nonempty
    (sdk : Genai) (env : option string) (secret : Exc (option string))
    (w : World) :
  exists names,
    fst (model_options sdk env secret w) = Ok names /\ names <> [].
Proof.
  run_script.
  destruct (truthy_flag (gemini_configured w)); reduce_world;
    [destruct (truthy_str env); [|destruct secret]; reduce_world;
     try (destruct (list_models sdk) as [models|e]; reduce_world;
          [destruct (available_names models)|]) |];
    eexists; (split; [reflexivity|discriminate]).
Qed.

(** * Further properties of the script *)

(** ** Client initialisation *)

Lemma truthy_nonempty (k : string) : k <> "" -> truthy_str (Some k) = true.
Proof.
  intros H. cbn [truthy_str]. apply negb_true_iff. now apply String.eqb_neq.
Qed.

(** X1: a value cached by an earlier call is returned as it is, without
    reading a key or touching the SDK.  Otherwise the environment variable
    wins whenever it is a non-empty string, and the secrets store is then
    not read at all; an unset or empty variable falls through to the
    store.  A non-empty key configures the SDK once and True is cached; no
    key gives None, cached too, with no call; and when the store cannot be
    read the raise escapes, nothing is called, and the session's first run
    stops with the flag unset. *)
Theorem init_gemini_client_key_choice
    (cache : ResourceCache) (env : option string)
    (secret : Exc (option string)) (w : World) :
  (forall v,
      cache = Some v ->
      init_gemini_client cache env secret w = (Ok (v, Some v), w))
  /\ (forall k,
        cache = None -> env = Some k -> k <> "" ->
        init_gemini_client cache env secret w
        = (Ok (Some true, Some (Some true)),
           mkWorld (messages w) (gemini_configured w) (ui w)
             (calls w ++ [CallConfigure k])))
  /\ (forall k,
        cache = None -> truthy_str env = false ->
        secret = Ok (Some k) -> k <> "" ->
        init_gemini_client cache env secret w
        = (Ok (Some true, Some (Some true)),
           mkWorld (messages w) (gemini_configured w) (ui w)
             (calls w ++ [CallConfigure k])))
  /\ (forall v,
        cache = None -> truthy_str env = false ->
        secret = Ok v -> truthy_str v = false ->
        init_gemini_client cache env secret w = (Ok (None, Some None), w))
  /\ (forall e,
        cache = None -> truthy_str env = false -> secret = Raised e ->
        init_gemini_client cache env secret w = (Raised e, w)
        /\ session_start cache env secret = (Raised e, empty_world)).
Proof.
  split; [|split; [|split; [|split]]].
  - intros v ->. reflexivity.
  - intros k -> -> Hk. pose proof (truthy_nonempty k Hk) as Ht.
    run_script. rewrite Ht. reduce_world. rewrite Ht. reflexivity.
  - intros k -> Henv -> Hk. pose proof (truthy_nonempty k Hk) as Ht.
    run_script. rewrite Henv. reduce_world. rewrite Ht. reflexivity.
  - intros v -> Henv -> Hv. run_script. rewrite Henv. reduce_world.
    destruct v as [k|]; [rewrite Hv|]; reflexivity.
  - intros e -> Henv ->. split.
    + run_script. rewrite Henv. reflexivity.
    + unfold session_start. run_script. rewrite Henv. reflexivity.
Qed.

Lemma init_gemini_client_key_choice_witness :
  init_gemini_client None (Some "") (Ok (Some "secret-key")) empty_world
  = (Ok (Some true, Some (Some true)),
     mkWorld [] None [] [CallConfigure "secret-key"])
  /\ init_gemini_client None (Some "env-key")
       (Raised (mkExn "FileNotFoundError" "No secrets found")) empty_world
     = (Ok (Some true, Some (Some true)),
        mkWorld [] None [] [CallConfigure "env-key"])
  /\ init_gemini_client (Some None) (Some "env-key") (Ok None) empty_world
     = (Ok (None, Some None), empty_world)
  /\ session_start None None
       (Raised (mkExn "FileNotFoundError" "No secrets found"))
     = (Raised (mkExn "FileNotFoundError" "No secrets found"), empty_world).
Proof.
  split; [|split; [|split]].
  - apply (proj1 (proj2 (proj2 (init_gemini_client_key_choice
             None (Some "") (Ok (Some "secret-key")) empty_world)))
             "secret-key"); [reflexivity..|discriminate].
  - apply (proj1 (proj2 (init_gemini_client_key_choice
             None (Some "env-key")
             (Raised (mkExn "FileNotFoundError" "No secrets found"))
             empty_world)) "env-key"); [reflexivity..|discriminate].
  - apply (proj1 (init_gemini_client_key_choice
             (Some None) (Some "env-key") (Ok None) empty_world) None).
    reflexivity.
  - apply (proj2 (proj2 (proj2 (proj2 (init_gemini_client_key_choice
             None None
             (Raised (mkExn "FileNotFoundError" "No secrets found"))
             empty_world))))
             (mkExn "FileNotFoundError" "No secrets found"));
      reflexivity.
Defined.

(** ** One submission, whatever the remote does *)

Ltac after_answer :=
  reduce_world; rewrite ?rev_unit; reduce_world; rewrite <- ?app_assoc.

(** The three ways a submission ends. *)
Lemma turn_flow_cases
    (sdk : Genai) (model : string) (cfg : GenerationConfig)
    (prompt : string) (w : World) :
  fst (turn_flow sdk model cfg prompt w) = Ok tt
  /\ gemini_configured (snd (turn_flow sdk model cfg prompt w))
     = gemini_configured w
  /\ (messages (snd (turn_flow sdk model cfg prompt w)) = messages w
      \/ exists reply,
           messages (snd (turn_flow sdk model cfg prompt w))
           = messages w ++ [mkMessage "user" prompt;
                            mkMessage "assistant" reply]).
Proof.
  destruct (truthy_flag (gemini_configured w)) eqn:Hcfg.
  - rewrite (turn_flow_configured _ _ _ _ _ Hcfg). unfold try_except.
    destruct (send_turn sdk model cfg (after_user_append prompt w))
      as [[u|e] w'] eqn:E.
    + destruct (send_turn_returned sdk model cfg (after_user_append prompt w))
        as (reply & Hm & Hc); [now rewrite E|].
      rewrite E in Hm, Hc. cbn [fst snd] in *. destruct u.
      repeat split; [exact Hc|]. right. exists reply.
      rewrite Hm. cbn [after_user_append messages]. now rewrite <- app_assoc.
    + destruct (send_turn_raised sdk model cfg (after_user_append prompt w) e)
        as (Hm & Hc & _); [now rewrite E|].
      rewrite E in Hm, Hc. cbn [snd after_user_append messages] in Hm.
      cbn [snd after_user_append gemini_configured] in Hc.
      rewrite (on_error_pops e w' _ _ Hm). cbn [fst snd messages].
      repeat split; [exact Hc|]. now left.
  - rewrite (turn_flow_unconfigured _ _ _ _ _ Hcfg). cbn [fst snd messages].
    repeat split. now left.
Qed.


(** X3: in a configured session, when the model is built, the chat starts
    and the provider answers the submitted text with a readable reply, the
    submission ends with the log extended by the user entry and an
    assistant entry holding exactly that reply, both drawn on the page, and
    with exactly three calls to the SDK. *)
Theorem successful_turn_result
    (sdk : Genai) (model : string) (cfg : GenerationConfig)
    (prompt reply : string) (w : World) :
  truthy_flag (gemini_configured w) = true ->
  GenerativeModel sdk model cfg = Ok tt ->
  start_chat sdk model cfg
    (start_chat_history (messages w ++ [mkMessage "user" prompt])) = Ok tt ->
  send_message sdk model cfg
    (start_chat_history (messages w ++ [mkMessage "user" prompt])) prompt
  = Ok (mkResponse (Ok reply)) ->
  turn_flow sdk model cfg prompt w
  = (Ok tt,
     mkWorld
       (messages w ++ [mkMessage "user" prompt; mkMessage "assistant" reply])
       (gemini_configured w)
       (ui w ++ [UiChatMarkdown "user" prompt;
                 UiChatMarkdown "assistant" reply])
       (calls w ++ [CallGenerativeModel model cfg;
                    CallStartChat
                      (start_chat_history
                         (messages w ++ [mkMessage "user" prompt]));
                    CallSendMessage prompt])).
Proof.
  intros Hcfg Hgm Hsc Hsend.
  rewrite (turn_flow_configured _ _ _ _ _ Hcfg).
  remember (start_chat_history (messages w ++ [mkMessage "user" prompt]))
    as h eqn:Hh.
  run_script. cbn [after_user_append messages gemini_configured ui calls].
  rewrite Hgm. reduce_world. rewrite <- Hh, Hsc. reduce_world.
  rewrite index_last_snoc. cbn [content]. rewrite Hsend. reduce_world.
  cbn [text]. reduce_world. now rewrite <- !app_assoc.
Qed.

Lemma successful_turn_result_witness :
  messages
    (snd (turn_flow echo_sdk "gemini-pro" sample_config "Hi"
            (configured_world [])))
  = [mkMessage "user" "Hi"; mkMessage "assistant" "echo: Hi"].
Proof.
  rewrite (successful_turn_result echo_sdk "gemini-pro" sample_config
             "Hi" "echo: Hi" (configured_world []));
    reflexivity.
Defined.

(** X4: the calls a submission makes to the SDK are the first [k] of:
    model construction, chat start with the converted earlier log, one
    send of the submitted text.  An unconfigured session makes none; a
    configured one stops after the construction if that raises, after the
    chat start if that raises, and otherwise makes all three.  It never
    sends twice and never sends anything but the submitted text. *)
Theorem turn_flow_call_sequence
    (sdk : Genai) (model : string) (cfg : GenerationConfig)
    (prompt : string) (w : World) :
  exists k,
    calls (snd (turn_flow sdk model cfg prompt w))
    = calls w
      ++ firstn k
           [CallGenerativeModel model cfg;
            CallStartChat
              (start_chat_history
                 (messages w ++ [mkMessage "user" prompt]));
            CallSendMessage prompt]
    /\ k
       = (if negb (truthy_flag (gemini_configured w)) then 0
          else if negb (is_ok (GenerativeModel sdk model cfg)) then 1
          else if negb (is_ok (start_chat sdk model cfg
                                 (start_chat_history
                                    (messages w
                                     ++ [mkMessage "user" prompt]))))
          then 2
          else 3).
Proof.
  destruct (truthy_flag (gemini_configured w)) eqn:Hcfg; cbn [negb].
  - rewrite (turn_flow_configured _ _ _ _ _ Hcfg).
    remember (start_chat_history (messages w ++ [mkMessage "user" prompt]))
      as h eqn:Hh.
    run_script. cbn [after_user_append messages gemini_configured ui calls].
    rewrite <- Hh, index_last_snoc. cbn [content].
    destruct (GenerativeModel sdk model cfg); after_answer;
      [|exists 1; split; reflexivity].
    destruct (start_chat sdk model cfg h); after_answer;
      [|exists 2; split; reflexivity].
    exists 3. split; [|reflexivity].
    destruct (send_message sdk model cfg h prompt) as [resp|e]; after_answer;
      [destruct (text resp); after_answer|]; reflexivity.
  - rewrite (turn_flow_unconfigured _ _ _ _ _ Hcfg). exists 0.
    split; [|reflexivity]. cbn [snd calls firstn]. now rewrite app_nil_r.
Qed.

(** ** Sequences of submissions, successful or not *)

Lemma run_turn_cases (s : Submission) (w : World) :
  gemini_configured (run_turn s w) = gemini_configured w
  /\ (messages (run_turn s w) = messages w
      \/ exists reply,
           messages (run_turn s w)
           = messages w ++ [mkMessage "user" (sub_prompt s);
                            mkMessage "assistant" reply]).
Proof.
  unfold run_turn.
  destruct (turn_flow_cases (sub_sdk s) (sub_model s) (sub_config s)
              (sub_prompt s) w) as (_ & Hc & Hm).
  split; assumption.
Qed.

(** X5: the script only ever writes the roles "user" and "assistant": a
    log that holds no other role holds no other role after any sequence of
    submissions, whatever the remote answers. *)
Theorem run_turns_roles_declared (subs : list Submission) (w : World) :
  forallb declared (messages w) = true ->
  forallb declared (messages (run_turns subs w)) = true.
Proof.
  revert w. induction subs as [|s subs IH]; intros w H; [exact H|].
  change (run_turns (s :: subs) w) with (run_turns subs (run_turn s w)).
  apply IH. destruct (run_turn_cases s w) as (_ & [Hm|(reply & Hm)]);
    rewrite Hm; [exact H|].
  rewrite forallb_app, H. reflexivity.
Qed.

Lemma run_turns_roles_declared_witness :
  forallb declared
    (messages
       (run_turns
          [mkSubmission quota_sdk "gemini-pro" sample_config "Hi";
           mkSubmission echo_sdk "gemini-pro" sample_config "Hi"]
          (configured_world [])))
  = true.
Proof.
  apply (run_turns_roles_declared
           [mkSubmission quota_sdk "gemini-pro" sample_config "Hi";
            mkSubmission echo_sdk "gemini-pro" sample_config "Hi"]
           (configured_world [])).
  reflexivity.
Defined.

(** X6: since a failed submission is rolled back completely, a log that
    alternates user, assistant, ... and has even length keeps both
    properties through any sequence of submissions, failed ones included,
    and grows by at most two entries per submission; two user entries
    never end up next to each other. *)
Theorem run_turns_keep_alternation (subs : list Submission) (w : World) :
  Nat.even (List.length (messages w)) = true ->
  alternating true (messages w) = true ->
  Nat.even (List.length (messages (run_turns subs w))) = true
  /\ alternating true (messages (run_turns subs w)) = true
  /\ List.length (messages (run_turns subs w))
     <= List.length (messages w) + 2 * List.length subs.
Proof.
  revert w. induction subs as [|s subs IH]; intros w Heven Halt.
  - cbn. repeat split; trivial. lia.
  - change (run_turns (s :: subs) w) with (run_turns subs (run_turn s w)).
    destruct (run_turn_cases s w) as (_ & [Hm|(reply & Hm)]).
    + destruct (IH (run_turn s w)) as (He & Ha & Hl); rewrite ?Hm; trivial.
      repeat split; trivial. rewrite Hm in Hl. cbn [List.length]. lia.
    + destruct (IH (run_turn s w)) as (He & Ha & Hl).
      * rewrite Hm, length_app. cbn [List.length].
        rewrite Nat.add_comm. cbn [Nat.add]. now rewrite Nat.even_succ_succ.
      * rewrite Hm, alternating_app, Halt, Heven. reflexivity.
      * repeat split; trivial. rewrite Hm, length_app in Hl.
        cbn [List.length] in *. lia.
Qed.

Lemma run_turns_keep_alternation_witness :
  alternating true
    (messages
       (run_turns
          [mkSubmission echo_sdk "gemini-pro" sample_config "Hi";
           mkSubmission quota_sdk "gemini-pro" sample_config "Again";
           mkSubmission echo_sdk "gemini-pro" sample_config "Again"]
          (configured_world [])))
  = true.
Proof.
  apply (run_turns_keep_alternation
           [mkSubmission echo_sdk "gemini-pro" sample_config "Hi";
            mkSubmission quota_sdk "gemini-pro" sample_config "Again";
            mkSubmission echo_sdk "gemini-pro" sample_config "Again"]
           (configured_world [])); reflexivity.
Defined.

(** What a submission does to the log depends on the session state only,
    not on what was drawn or called before. *)
Lemma turn_flow_messages_ext
    (sdk : Genai) (model : string) (cfg : GenerationConfig)
    (prompt : string) (w1 w2 : World) :
  messages w1 = messages w2 ->
  gemini_configured w1 = gemini_configured w2 ->
  messages (snd (turn_flow sdk model cfg prompt w1))
  = messages (snd (turn_flow sdk model cfg prompt w2)).
Proof.
  intros Hm Hc.
  destruct (truthy_flag (gemini_configured w1)) eqn:Hcfg.
  - assert (Hcfg2 : truthy_flag (gemini_configured w2) = true)
      by now rewrite <- Hc.
    rewrite (turn_flow_configured _ _ _ _ _ Hcfg),
      (turn_flow_configured _ _ _ _ _ Hcfg2).
    run_script. cbn [after_user_append messages gemini_configured ui calls].
    rewrite <- Hm, index_last_snoc. cbn [content].
    destruct (GenerativeModel sdk model cfg); after_answer; trivial.
    destruct (start_chat sdk model cfg _); after_answer; trivial.
    destruct (send_message sdk model cfg _ prompt) as [resp|e];
      after_answer; trivial.
    destruct (text resp); after_answer; trivial.
  - assert (Hcfg2 : truthy_flag (gemini_configured w2) = false)
      by now rewrite <- Hc.
    rewrite (turn_flow_unconfigured _ _ _ _ _ Hcfg),
      (turn_flow_unconfigured _ _ _ _ _ Hcfg2).
    exact Hm.
Qed.

(** X7: retrying after a failure does not duplicate anything: a
    submission that follows a failed one leaves the log it would have left
    had the failed one never been made. *)
Theorem retry_after_failure (failed s : Submission) (w : World) (e : Exn) :
  truthy_flag (gemini_configured w) = true ->
  fst (send_turn (sub_sdk failed) (sub_model failed) (sub_config failed)
         (after_user_append (sub_prompt failed) w)) = Raised e ->
  messages (run_turns [failed; s] w) = messages (run_turn s w).
Proof.
  intros Hcfg Hraise.
  change (run_turns [failed; s] w) with (run_turn s (run_turn failed w)).
  unfold run_turn at 1 3. apply turn_flow_messages_ext.
  - unfold run_turn. rewrite (turn_flow_configured _ _ _ _ _ Hcfg).
    destruct (send_turn_raised _ _ _ _ _ Hraise) as (Hm & _ & _).
    unfold try_except.
    destruct (send_turn (sub_sdk failed) (sub_model failed)
                (sub_config failed) (after_user_append (sub_prompt failed) w))
      as [r w'] eqn:E.
    cbn [fst snd] in *. subst r.
    now rewrite (on_error_pops e w' (messages w)
                   (mkMessage "user" (sub_prompt failed)) Hm).
  - apply run_turn_cases.
Qed.

Lemma retry_after_failure_witness :
  messages
    (run_turns
       [mkSubmission quota_sdk "gemini-pro" sample_config "Hi";
        mkSubmission echo_sdk "gemini-pro" sample_config "Hi"]
       (configured_world []))
  = [mkMessage "user" "Hi"; mkMessage "assistant" "echo: Hi"].
Proof.
  rewrite (retry_after_failure
             (mkSubmission quota_sdk "gemini-pro" sample_config "Hi")
             (mkSubmission echo_sdk "gemini-pro" sample_config "Hi")
             (configured_world []) quota_error); reflexivity.
Defined.


(** ** The page *)

Lemma display_fold (ms : list Message) (acc : M unit) (w w' : World) :
  acc w = (Ok tt, w') ->
  fold_left (fun (a : M unit) m => bind a (fun _ => render (bubble m))) ms acc w
  = (Ok tt,
     mkWorld (messages w') (gemini_configured w') (ui w' ++ map bubble ms)
       (calls w')).
Proof.
  revert acc w'. induction ms as [|m ms IH]; intros acc w' Hacc.
  - cbn. rewrite Hacc, app_nil_r. now destruct w'.
  - cbn [fold_left map].
    rewrite (IH _ (mkWorld (messages w') (gemini_configured w')
                     (ui w' ++ [bubble m]) (calls w'))).
    + reduce_world. now rewrite <- app_assoc.
    + unfold bind, render. now rewrite Hacc.
Qed.

(** The display loop draws one bubble per entry, oldest first, and changes
    nothing else. *)
Lemma display_messages_run (w : World) :
  display_messages w
  = (Ok tt,
     mkWorld (messages w) (gemini_configured w)
       (ui w ++ map bubble (messages w)) (calls w)).
Proof.
  exact (display_fold (messages w) (ret tt) w w eq_refl).
Qed.

(** X9: in a run whose submission succeeds, the bubbles drawn are exactly
    the entries of the final log, in order: the earlier conversation from
    the display loop, then the submitted text and the reply. *)
Theorem page_mirrors_log
    (sdk : Genai) (model : string) (cfg : GenerationConfig)
    (prompt reply : string) (w : World) :
  prompt <> "" ->
  truthy_flag (gemini_configured w) = true ->
  GenerativeModel sdk model cfg = Ok tt ->
  start_chat sdk model cfg
    (start_chat_history (messages w ++ [mkMessage "user" prompt])) = Ok tt ->
  send_message sdk model cfg
    (start_chat_history (messages w ++ [mkMessage "user" prompt])) prompt
  = Ok (mkResponse (Ok reply)) ->
  fst (main_chat_interface sdk model cfg (Some prompt) w) = Ok tt
  /\ messages (snd (main_chat_interface sdk model cfg (Some prompt) w))
     = messages w ++ [mkMessage "user" prompt; mkMessage "assistant" reply]
  /\ ui (snd (main_chat_interface sdk model cfg (Some prompt) w))
     = ui w
       ++ map bubble
            (messages (snd (main_chat_interface sdk model cfg (Some prompt) w))).
Proof.
  intros Hp Hcfg Hgm Hsc Hsend.
  unfold main_chat_interface, bind. rewrite display_messages_run.
  cbn [chat_input]. rewrite (truthy_nonempty prompt Hp).
  rewrite turn_flow_configured by exact Hcfg.
  remember (start_chat_history (messages w ++ [mkMessage "user" prompt]))
    as h eqn:Hh.
  run_script. cbn [after_user_append messages gemini_configured ui calls].
  rewrite Hgm. reduce_world. rewrite <- Hh, Hsc. reduce_world.
  rewrite index_last_snoc. cbn [content]. rewrite Hsend. reduce_world.
  cbn [text]. reduce_world.
  split; [reflexivity|]. split; [now rewrite <- app_assoc|].
  rewrite !map_app, <- !app_assoc. reflexivity.
Qed.

Lemma page_mirrors_log_witness :
  ui (snd (main_chat_interface echo_sdk "gemini-pro" sample_config
             (Some "How are you?")
             (configured_world
                [mkMessage "user" "Hi"; mkMessage "assistant" "echo: Hi"])))
  = [UiChatMarkdown "user" "Hi"; UiChatMarkdown "assistant" "echo: Hi";
     UiChatMarkdown "user" "How are you?";
     UiChatMarkdown "assistant" "echo: How are you?"].
Proof.
  assert (Hp : "How are you?" <> "") by discriminate.
  destruct (page_mirrors_log echo_sdk "gemini-pro" sample_config
              "How are you?" "echo: How are you?"
              (configured_world
                 [mkMessage "user" "Hi"; mkMessage "assistant" "echo: Hi"])
              Hp eq_refl eq_refl eq_refl eq_refl)
    as (_ & Hm & Hui).
  rewrite Hui, Hm. reflexivity.
Defined.

(** ** Sidebar *)

Lemma py_index_found (x : string) (xs : list string) :
  py_in x xs = true ->
  exists i,
    py_index x xs = Ok i
    /\ nth_error xs i = Some x
    /\ (forall j, j < i -> nth_error xs j <> Some x).
Proof.
  induction xs as [|y ys IH]; cbn [py_in py_index]; [discriminate|].
  destruct (String.eqb_spec y x) as [->|Hne]; cbn [orb].
  - intros _. exists 0. repeat split. intros j Hj. lia.
  - intros Hin. destruct (IH Hin) as (i & -> & Hnth & Hfirst).
    exists (S i). repeat split; [exact Hnth|].
    intros [|j] Hj; cbn [nth_error]; [congruence|].
    apply Hfirst. lia.
Qed.

(** X10: computing the default selection never raises, since [index] is
    only asked for a name that is in the list.  The default is the first
    position of "gemini-pro" when that name is offered and position 0
    otherwise, so it is a valid position of every non-empty list. *)
Theorem default_index_valid (options : list string) :
  exists i,
    default_index options = Ok i
    /\ (options <> [] -> i < List.length options)
    /\ (py_in "gemini-pro" options = true ->
        nth_error options i = Some "gemini-pro"
        /\ forall j, j < i -> nth_error options j <> Some "gemini-pro")
    /\ (py_in "gemini-pro" options = false -> i = 0).
Proof.
  unfold default_index.
  destruct (py_in "gemini-pro" options) eqn:Hin.
  - destruct (py_index_found _ _ Hin) as (i & Hi & Hnth & Hfirst).
    exists i. repeat split; trivial; try discriminate.
    intros _. apply nth_error_Some. now rewrite Hnth.
  - exists 0. split; [now destruct (Nat.ltb 0 (List.length options))|].
    repeat split; try discriminate.
    intros Hne. destruct options; [congruence|cbn; lia].
Qed.

Lemma default_index_valid_witness :
  exists i,
    default_index ["gemini-1.5-flash"; "gemini-pro"; "gemini-pro"] = Ok i
    /\ i < 3.
Proof.
  destruct (default_index_valid ["gemini-1.5-flash"; "gemini-pro"; "gemini-pro"])
    as (i & Hi & Hrange & _).
  exists i. split; [exact Hi|]. apply Hrange. discriminate.
Defined.

(** X11: computing the sidebar's model list changes neither the log, the
    configured flag nor the page.  It calls the SDK once, to list the
    models, when the session is configured and the key can be read again;
    it makes no call in an unconfigured session, nor when the key is looked
    up in a secrets store that cannot be read, and the fallback list is
    offered in both of these cases. *)
Theorem model_options_effects
    (sdk : Genai) (env : option string) (secret : Exc (option string))
    (w : World) :
  snd (model_options sdk env secret w)
  = mkWorld (messages w) (gemini_configured w) (ui w)
      (calls w
       ++ (if truthy_flag (gemini_configured w)
              && (truthy_str env || is_ok secret)
           then [CallListModels] else []))
  /\ (truthy_flag (gemini_configured w) = false ->
      fst (model_options sdk env secret w) = Ok fallback_models)
  /\ (forall e,
        truthy_str env = false -> secret = Raised e ->
        fst (model_options sdk env secret w) = Ok fallback_models).
Proof.
  run_script. destruct (truthy_flag (gemini_configured w)); reduce_world.
  - destruct (truthy_str env); [|destruct secret as [v|e]];
      cbn [andb orb is_ok]; reduce_world;
      try (destruct (list_models sdk); reduce_world);
      rewrite ?app_nil_r;
      (split; [now destruct w|split; [discriminate|]]);
      intros e' He Hs; try discriminate; reflexivity.
  - cbn [andb]. rewrite app_nil_r.
    split; [now destruct w|split; reflexivity].
Qed.

Lemma model_options_effects_witness :
  model_options echo_sdk None
    (Raised (mkExn "FileNotFoundError" "No secrets found"))
    (configured_world [])
  = (Ok fallback_models, configured_world [])
  /\ fst (model_options echo_sdk (Some "env-key") (Ok None)
            (unconfigured_world []))
     = Ok fallback_models.
Proof.
  pose proof (model_options_effects echo_sdk None
                (Raised (mkExn "FileNotFoundError" "No secrets found"))
                (configured_world [])) as (Hw & _ & Hraise).
  split.
  - rewrite (surjective_pairing (model_options _ _ _ _)), Hw.
    rewrite (Hraise _ eq_refl eq_refl). reflexivity.
  - apply (proj1 (proj2 (model_options_effects echo_sdk (Some "env-key")
                           (Ok None) (unconfigured_world [])))).
    reflexivity.
Defined.

(** X12: whatever the secrets store and the remote do, the selectbox gets
    a non-empty option list and a default position inside it. *)
Theorem sidebar_selection_valid
    (sdk : Genai) (env : option string) (secret : Exc (option string))
    (w : World) :
  exists names i,
    fst (model_options sdk env secret w) = Ok names
    /\ default_index names = Ok i
    /\ i < List.length names.
Proof.
  destruct (model_options_nonempty sdk env secret w) as (names & Hret & Hne).
  exists names. unfold default_index.
  destruct (py_in "gemini-pro" names) eqn:Hin.
  - destruct (py_index_found _ _ Hin) as (i & Hi & Hnth & _).
    exists i. repeat split; trivial.
    apply nth_error_Some. now rewrite Hnth.
  - exists 0. repeat split; trivial.
    + now destruct (Nat.ltb 0 (List.length names)).
    + destruct names; [congruence|cbn; lia].
Qed.

(** ** Name stripping *)

Lemma prefix_app (p s : string) : String.prefix p (p ++ s)%string = true.
Proof.
  induction p as [|c p IH]; cbn; [now destruct s|].
  destruct (Ascii.ascii_dec c c); [exact IH|congruence].
Qed.

Lemma replace_from_skip (old new p s : string) :
  replace_from old new (String.length p) (p ++ s)%string
  = replace_from old new 0 s.
Proof.
  induction p as [|c p IH]; cbn [String.length String.append];
    [reflexivity|exact IH].
Qed.

Lemma replace_leading (old new s : string) :
  old <> "" ->
  replace old new (old ++ s)%string = (new ++ replace old new s)%string.
Proof.
  destruct old as [|c old]; [congruence|]. intros _. unfold replace.
  change (String c old ++ s)%string with (String c (old ++ s)%string).
  cbn [replace_from].
  change (String c (old ++ s)%string) with (String c old ++ s)%string.
  rewrite prefix_app.
  cbn [String.length]. rewrite Nat.sub_succ, Nat.sub_0_r.
  now rewrite replace_from_skip.
Qed.

Lemma replace_absent (old new s : string) :
  contains old s = false -> replace old new s = s.
Proof.
  unfold replace. induction s as [|c s IH]; [reflexivity|].
  cbn [contains replace_from]. intros H.
  apply orb_false_iff in H as [Hp Hc]. rewrite Hp. now rewrite IH.
Qed.

(** X13: when the account's models are named "models/<id>" and no id
    contains "models/" itself, the names offered are exactly the ids of
    the models that advertise "generateContent", in listing order; a name
    without "models/" is offered unchanged. *)
Theorem available_names_strip_prefix (models : list Model) :
  Forall (fun m => contains "models/" (name m) = false) models ->
  available_names
    (map (fun m => mkModel ("models/" ++ name m)%string
                     (supported_generation_methods m)) models)
  = map name
      (filter (fun m => py_in "generateContent"
                          (supported_generation_methods m)) models)
  /\ available_names models
     = map name
         (filter (fun m => py_in "generateContent"
                             (supported_generation_methods m)) models).
Proof.
  intros H. induction H as [|m models Hm _ [IH1 IH2]]; [now split|].
  cbn [map available_names filter name supported_generation_methods].
  destruct (py_in "generateContent" (supported_generation_methods m));
    cbn [map]; rewrite IH1, IH2; [|now split].
  rewrite replace_leading by discriminate.
  rewrite (replace_absent _ _ _ Hm). now split.
Qed.

Lemma available_names_strip_prefix_witness :
  available_names
    [mkModel "models/gemini-pro" ["generateContent"];
     mkModel "models/embedding-001" ["embedContent"];
     mkModel "models/gemini-1.5-flash" ["countTokens"; "generateContent"]]
  = ["gemini-pro"; "gemini-1.5-flash"].
Proof.
  assert (H : Forall (fun m => contains "models/" (name m) = false)
                [mkModel "gemini-pro" ["generateContent"];
                 mkModel "embedding-001" ["embedContent"];
                 mkModel "gemini-1.5-flash"
                   ["countTokens"; "generateContent"]])
    by (repeat constructor).
  exact (proj1 (available_names_strip_prefix _ H)).
Defined.

(** ** A reply that cannot be read *)

(** X14: when the provider accepts the message but reading the reply's
    text raises, the submission counts as failed: all three calls have
    been made, yet the log is the log before the submission, without the
    user entry, and the page shows the submitted text and the error. *)
Theorem unreadable_reply_rolls_back
    (sdk : Genai) (model : string) (cfg : GenerationConfig)
    (prompt : string) (w : World) (e : Exn) :
  truthy_flag (gemini_configured w) = true ->
  GenerativeModel sdk model cfg = Ok tt ->
  start_chat sdk model cfg
    (start_chat_history (messages w ++ [mkMessage "user" prompt])) = Ok tt ->
  send_message sdk model cfg
    (start_chat_history (messages w ++ [mkMessage "user" prompt])) prompt
  = Ok (mkResponse (Raised e)) ->
  turn_flow sdk model cfg prompt w
  = (Ok tt,
     mkWorld (messages w) (gemini_configured w)
       (ui w ++ [UiChatMarkdown "user" prompt; UiError (error_text e)])
       (calls w ++ [CallGenerativeModel model cfg;
                    CallStartChat
                      (start_chat_history
                         (messages w ++ [mkMessage "user" prompt]));
                    CallSendMessage prompt])).
Proof.
  intros Hcfg Hgm Hsc Hsend.
  rewrite (turn_flow_configured _ _ _ _ _ Hcfg).
  remember (start_chat_history (messages w ++ [mkMessage "user" prompt]))
    as h eqn:Hh.
  run_script. cbn [after_user_append messages gemini_configured ui calls].
  rewrite Hgm. reduce_world. rewrite <- Hh, Hsc. reduce_world.
  rewrite index_last_snoc. cbn [content]. rewrite Hsend. reduce_world.
  cbn [text]. after_answer. now rewrite slice_but_last_snoc.
Qed.

Lemma unreadable_reply_rolls_back_witness :
  messages
    (snd (turn_flow
            (mkGenai (Ok []) (fun _ _ => Ok tt) (fun _ _ _ => Ok tt)
               (fun _ _ _ _ =>
                  Ok (mkResponse (Raised (mkExn "ValueError" "blocked")))))
            "gemini-pro" sample_config "Hi" (configured_world [])))
  = [].
Proof.
  rewrite (unreadable_reply_rolls_back _ "gemini-pro" sample_config "Hi"
             (configured_world []) (mkExn "ValueError" "blocked"));
    reflexivity.
Defined.
